(** * Social media post generator with user feedback

    A shallow embedding of the two functions of [Tutorial_notebook.ipynb],
    [generate_post] and [send_feedback_to_phoenix], together with the
    parts of Python and of the external services they call (the tracer,
    the chat-completion client and the HTTP client).

    External calls are recorded, in order, in a trace of events; what an
    external service answers is given by a [World].

    The notebook's other code cells are embedded too: the configuration
    cell, as a function on [os.environ], and the two cells that call
    [generate_post] and then [send_feedback_to_phoenix]. *)

From Stdlib Require Import ZArith NArith String Ascii List Lia Bool.
From stdpp Require Import base option strings gmap.
From Equations Require Import Equations.
Import ListNotations.

Open Scope string_scope.

(** ** Python values *)

Module Py.

(** An instance of Python's [Exception] class: the class name and what
    [str(e)] gives.  These are the exceptions an [except Exception]
    clause catches. *)
Record exn := Exception { exc_type : string; exc_str : string }.

(** How a call ends. *)
Inductive outcome (A : Type) : Type :=
| Returned (a : A)
| Raised (e : exn).
Arguments Returned {A} a.
Arguments Raised {A} e.

(** Truth value of an [Optional[str]]: [None] and [''] are falsy. *)
Definition truthy (v : option string) : bool :=
  match v with
  | None => false
  | Some s => negb (String.eqb s "")
  end.

(** [l[i]] on a list; out of range raises [IndexError]. *)
Definition getitem {A : Type} (l : list A) (i : nat) : outcome A :=
  match nth_error l i with
  | Some a => Returned a
  | None => Raised (Exception "IndexError" "list index out of range")
  end.

(** *** [format(n, '016x')] *)

Definition hex_digit (d : N) : ascii :=
  match d with
  | 0 => "0" | 1 => "1" | 2 => "2" | 3 => "3"
  | 4 => "4" | 5 => "5" | 6 => "6" | 7 => "7"
  | 8 => "8" | 9 => "9" | 10 => "a" | 11 => "b"
  | 12 => "c" | 13 => "d" | 14 => "e" | _ => "f"
  end%N%char.

(** Presentation type ['x']: the digits of a natural number in base 16,
    most significant first, lower case, no prefix. *)
Equations? hex_digits (n : N) : string by wf (N.to_nat (N.log2 n)) lt :=
  hex_digits n with decide (n < 16)%N := {
    | left _ := String (hex_digit n) EmptyString
    | right H := hex_digits (n / 16) ++ String (hex_digit (n mod 16)) EmptyString }.
Proof.
  assert (Hn : (16 <= n)%N) by lia.
  change (n / 16)%N with (n / 2 ^ 4)%N.
  rewrite <- N.shiftr_div_pow2, N.log2_shiftr.
  assert (4 <= N.log2 n)%N
    by (change 4%N with (N.log2 16); apply N.log2_le_mono; lia).
  lia.
Qed.

(** [k] copies of the fill character ['0']. *)
Fixpoint zeros (k : nat) : string :=
  match k with
  | O => EmptyString
  | S k' => String "0"%char (zeros k')
  end.

(** Format specification ['016x']: zero fill, minimum width 16, type x.
    The fill goes between the sign and the digits; a longer number is
    not truncated. *)
Definition format_016x (n : Z) : string :=
  let digits := hex_digits (Z.abs_N n) in
  if (n <? 0)%Z
  then String "-"%char (zeros (15 - String.length digits) ++ digits)
  else zeros (16 - String.length digits) ++ digits.

(** *** Reading a hexadecimal numeral, as [int(s, 16)] does for lower-case
    digits; used to state what [format_016x] denotes. *)

Definition hex_digit_value (c : ascii) : option N :=
  let n := N_of_ascii c in
  if ((48 <=? n) && (n <=? 57))%N then Some (n - 48)%N
  else if ((97 <=? n) && (n <=? 102))%N then Some (n - 87)%N
  else None.

Definition is_lower_hex (c : ascii) : bool :=
  match hex_digit_value c with Some _ => true | None => false end.

Fixpoint hex_value_from (acc : N) (s : string) : option N :=
  match s with
  | EmptyString => Some acc
  | String c s' =>
      match hex_digit_value c with
      | Some d => hex_value_from (16 * acc + d)%N s'
      | None => None
      end
  end.

Definition hex_value (s : string) : option N := hex_value_from 0 s.

Fixpoint string_forallb (f : ascii -> bool) (s : string) : bool :=
  match s with
  | EmptyString => true
  | String c s' => f c && string_forallb f s'
  end.

End Py.
Import Py.

(** ** JSON values, as the [json=] argument of an HTTP request carries them.
    A Python [dict] keeps its keys in insertion order. *)

#[warnings="-register-all"]
Inductive json : Type :=
| JNull
| JBool (b : bool)
| JNum (n : Z)
| JStr (s : string)
| JList (items : list json)
| JDict (entries : list (string * json)).

Module Json.

Fixpoint assoc (k : string) (entries : list (string * json)) : option json :=
  match entries with
  | [] => None
  | (k', v) :: rest => if String.eqb k k' then Some v else assoc k rest
  end.

(** [d[k]] on a dict. *)
Definition get (k : string) (j : json) : option json :=
  match j with
  | JDict entries => assoc k entries
  | _ => None
  end.

(** An [Optional[str]] as a JSON value. *)
Definition of_optional_str (v : option string) : json :=
  match v with
  | None => JNull
  | Some s => JStr s
  end.

End Json.

(** ** The external services *)

(** A request message of the chat-completion API: a dict of strings. *)
Definition ChatMessage : Type := list (string * string).

(** The response of the chat-completion API, as far as the code reads it:
    [response.choices[0].message.content].  The content is an
    [Optional[str]]: a message may come without a text. *)
Record ChatCompletionMessage := { content : option string }.
Record Choice := { message : ChatCompletionMessage }.
Record ChatCompletion := { choices : list Choice }.

(** The response of the HTTP client, as far as the code reads it. *)
Record Response := { status_code : Z }.

(** The tracer's span: the code reads its span context. *)
Record SpanContext := { span_id : Z }.
Record Span := { get_span_context : SpanContext }.

(** The object [httpx.Client()] returns. *)
Inductive Client : Type := HttpxClient.

(** What the outside answers.  [tracer_span_id] is the identifier the
    tracer mints for the span that [generate_post] opens; [httpx_client]
    is how [httpx.Client()] ends: with a client, or with an exception
    (the constructor reads the proxy settings of the environment and
    rejects what it cannot use). *)
Record World := {
  tracer_span_id : Z;
  chat_completions_create : string -> list ChatMessage -> outcome ChatCompletion;
  httpx_client : outcome Client;
  httpx_post : string -> json -> outcome Response
}.

(** The calls made to the outside, each with what it was given and, for
    a call that may fail, how it ended. *)
Inductive event : Type :=
| EvStartSpan (name : string) (attributes : gmap string string)
| EvSetAttribute (key : string) (value : option string)
| EvEndSpan (exc : option exn)
| EvCompletion (model : string) (messages : list ChatMessage)
               (result : outcome ChatCompletion)
| EvHttpxClient (result : outcome Client)
| EvPost (url : string) (body : json) (result : outcome Response).

(** ** Computations: a trace of events is threaded through, and a
    computation returns a value or raises. *)

Definition M (A : Type) : Type := list event -> outcome A * list event.

#[global] Instance M_ret : MRet M :=
  fun A (a : A) tr => (Returned a, tr).

#[global] Instance M_bind : MBind M :=
  fun A B (f : A -> M B) (m : M A) tr =>
    match m tr with
    | (Returned a, tr') => f a tr'
    | (Raised e, tr') => (Raised e, tr')
    end.

Module MOps.

(** A call that ended with [o], with no effect of its own. *)
Definition lift {A : Type} (o : outcome A) : M A :=
  fun tr => (o, tr).

Definition emit (ev : event) : M unit :=
  fun tr => (Returned tt, (tr ++ [ev])%list).

(** [try: body  except Exception as e: handler e] *)
Definition try_except {A : Type} (body : M A) (handler : exn -> M A) : M A :=
  fun tr =>
    match body tr with
    | (Returned a, tr') => (Returned a, tr')
    | (Raised e, tr') => handler e tr'
    end.

(** A computation run from the empty trace. *)
Definition run {A : Type} (m : M A) : outcome A * list event := m [].

End MOps.
Import MOps.

(** ** Constants *)

(** [openinference.semconv.trace.SpanAttributes] *)
Module SpanAttributes.
Definition OPENINFERENCE_SPAN_KIND : string := "openinference.span.kind".
Definition INPUT_VALUE : string := "input.value".
Definition OUTPUT_VALUE : string := "output.value".
End SpanAttributes.

Definition nl : string := String "010"%char EmptyString.
Definition dq : string := String "034"%char EmptyString.

(** [PROMPT_TEMPLATE.format(product_desc=description)]: the template has
    the single field [{product_desc}]; the text before and after it. *)
Definition PROMPT_TEMPLATE_before : string :=
  nl ++ "You are an expert social media content creator." ++ nl
  ++ "Your task is to create a different promotion message with the following " ++ nl
  ++ "Product Description :" ++ nl
  ++ "------" ++ nl.

Definition PROMPT_TEMPLATE_after : string :=
  nl ++ "------" ++ nl
  ++ "The output promotion message should have the following :" ++ nl
  ++ "Title: a powerful, short message that dipict what this product is about " ++ nl
  ++ "Message: be creative for the promotion message, but make it short and ready for social media feeds, under 100 words." ++ nl
  ++ "Tags: the hash tag human will nomally use in social media" ++ nl
  ++ nl
  ++ "Give me the final post, do not have " ++ dq ++ "Title:" ++ dq ++ ", "
  ++ dq ++ "Message:" ++ dq ++ ", " ++ dq ++ "Tags:" ++ dq ++ " in it." ++ nl
  ++ "Begin!" ++ nl.

Definition PROMPT_TEMPLATE_format (product_desc : string) : string :=
  PROMPT_TEMPLATE_before ++ product_desc ++ PROMPT_TEMPLATE_after.

Definition annotation_url : string :=
  "http://localhost:6006/v1/span_annotations?sync=false".

(** ** The program *)

Section Program.

Context (w : World).

(** *** The calls to the outside *)

(** [span.set_attribute(key, value)], with the value as it is passed: a
    string or [None].  The call itself never raises. *)
Definition set_attribute (span : Span) (key : string) (value : option string)
    : M unit :=
  emit (EvSetAttribute key value).

(** [with tracer.start_as_current_span(name, attributes=attributes) as span: body].
    The span is ended when the block is left, by [return] or by an
    exception, which is recorded on the span and propagates. *)
Definition start_as_current_span {A : Type}
    (name : string) (attributes : gmap string string)
    (body : Span -> M A) : M A :=
  fun tr =>
    let span := {| get_span_context := {| span_id := tracer_span_id w |} |} in
    match body span (tr ++ [EvStartSpan name attributes])%list with
    | (Returned a, tr') => (Returned a, (tr' ++ [EvEndSpan None])%list)
    | (Raised e, tr') => (Raised e, (tr' ++ [EvEndSpan (Some e)])%list)
    end.

(** [client.chat.completions.create(model=model, messages=messages)]:
    one call of the method, with how it ended.  The requests the client
    library sends to serve that call are its own business. *)
Definition completions_create
    (model : string) (messages : list ChatMessage) : M ChatCompletion :=
  fun tr =>
    let r := chat_completions_create w model messages in
    (r, (tr ++ [EvCompletion model messages r])%list).

(** [httpx.Client()]: a client with the default settings, or the
    exception the constructor raises. *)
Definition httpx_Client : M Client :=
  fun tr =>
    let r := httpx_client w in
    (r, (tr ++ [EvHttpxClient r])%list).

(** [client.post(url, json=body)] *)
Definition post (client : Client) (url : string) (body : json) : M Response :=
  fun tr =>
    let r := httpx_post w url body in
    (r, (tr ++ [EvPost url body r])%list).

(** *** [generate_post] *)

Definition messages (description : string) : list ChatMessage :=
  [ [("role", "system");
     ("content", "You are a helpful social media content creator.")];
    [("role", "user");
     ("content", PROMPT_TEMPLATE_format description)] ].

(** The text returned is what the completion gave, a string or [None],
    or the error text. *)
Definition generate_post (description : string)
    : M (option string * option string) :=
  try_except
    (let attributes : gmap string string :=
       {[ SpanAttributes.OPENINFERENCE_SPAN_KIND := "CHAIN" ]} in
     start_as_current_span "Social media post" attributes (fun span =>
       set_attribute span SpanAttributes.INPUT_VALUE (Some description) ;;
       response ← completions_create "gpt-4o" (messages description) ;
       choice ← lift (getitem (choices response) 0) ;
       let output_content := content (message choice) in
       set_attribute span SpanAttributes.OUTPUT_VALUE output_content ;;
       let span_context := get_span_context span in
       let span_id := format_016x (span_id span_context) in
       mret (output_content, Some span_id)))
    (fun e => mret (Some ("Error generating post: " ++ exc_str e), None)).

(** *** [send_feedback_to_phoenix] *)

Definition label (feedback_type : string) : string :=
  if String.eqb feedback_type "like" then "👍" else "👎".

Definition score (feedback_type : string) : Z :=
  if String.eqb feedback_type "like" then 1%Z else 0%Z.

Definition annotation_payload
    (span_id : option string) (feedback_type : string) : json :=
  JDict
    [ ("data",
       JList
         [ JDict
             [ ("span_id", Json.of_optional_str span_id);
               ("name", JStr "user feedback");
               ("annotator_kind", JStr "HUMAN");
               ("result",
                JDict
                  [ ("label", JStr (label feedback_type));
                    ("score", JNum (score feedback_type));
                    ("explanation",
                     JStr ("User provided " ++ feedback_type ++ " feedback")) ]);
               ("metadata", JDict []) ] ]) ].

Definition send_feedback_to_phoenix
    (span_id : option string) (feedback_type : string) : M bool :=
  if negb (truthy span_id) then mret false
  else
    client ← httpx_Client ;
    try_except
      (response ← post client annotation_url
                    (annotation_payload span_id feedback_type) ;
       mret (status_code response =? 200)%Z)
      (fun _ => mret false).

End Program.

(** ** Reading a trace *)

(** The attributes of the span after the events of a trace: those it was
    opened with, updated by each [set_attribute] that passes a string.
    A [None] is not a valid attribute value: the span logs a warning and
    keeps its attributes as they are. *)
Fixpoint span_attributes_from
    (attrs : gmap string string) (tr : list event) : gmap string string :=
  match tr with
  | [] => attrs
  | EvStartSpan _ attributes :: tr' => span_attributes_from attributes tr'
  | EvSetAttribute key (Some value) :: tr' =>
      span_attributes_from (<[ key := value ]> attrs) tr'
  | _ :: tr' => span_attributes_from attrs tr'
  end.

Definition span_attributes (tr : list event) : gmap string string :=
  span_attributes_from ∅ tr.

(** The [set_attribute] calls of a trace, in order. *)
Fixpoint set_attribute_calls (tr : list event)
    : list (string * option string) :=
  match tr with
  | [] => []
  | EvSetAttribute key value :: tr' => (key, value) :: set_attribute_calls tr'
  | _ :: tr' => set_attribute_calls tr'
  end.

(** The HTTP POSTs of a trace, in order: the URL and the body of each. *)
Fixpoint post_calls (tr : list event) : list (string * json) :=
  match tr with
  | [] => []
  | EvPost url body _ :: tr' => (url, body) :: post_calls tr'
  | _ :: tr' => post_calls tr'
  end.

(** The status code a POST ended with, if it returned a response. *)
Definition status_of (o : outcome Response) : option Z :=
  match o with
  | Returned r => Some (status_code r)
  | Raised _ => None
  end.

(** The annotation record of a payload: [payload["data"][0]]. *)
Definition annotation_record (payload : json) : option json :=
  match Json.get "data" payload with
  | Some (JList (record :: _)) => Some record
  | _ => None
  end.

(** The attributes [generate_post] opens its span with. *)
Definition creation_attributes : gmap string string :=
  {[ SpanAttributes.OPENINFERENCE_SPAN_KIND := "CHAIN" ]}.

(** What the relay's [try] block gives once the POST ended with [o]. *)
Definition relay_result (o : outcome Response) : bool :=
  match o with
  | Returned response => (status_code response =? 200)%Z
  | Raised _ => false
  end.

(** ** Example worlds *)

Module Mock.

Definition completion_of (text : string) : ChatCompletion :=
  {| choices := [ {| message := {| content := Some text |} |} ] |}.

(** The end-to-end scenario: the completion gives a post, the tracer
    mints [abc123abc123abcd], the annotation endpoint answers 200. *)
Definition scenario : World :=
  {| tracer_span_id := 0xabc123abc123abcd;
     chat_completions_create := fun _ _ => Returned (completion_of "Great mug! #mugs");
     httpx_client := Returned HttpxClient;
     httpx_post := fun _ _ => Returned {| status_code := 200 |} |}.

(** The annotation endpoint answers 404. *)
Definition not_found : World :=
  {| tracer_span_id := 0x27df1f6642d34166;
     chat_completions_create := fun _ _ => Returned (completion_of "Great mug! #mugs");
     httpx_client := Returned HttpxClient;
     httpx_post := fun _ _ => Returned {| status_code := 404 |} |}.

(** Nothing is reachable: both clients raise. *)
Definition unreachable : World :=
  {| tracer_span_id := 0x27df1f6642d34166;
     chat_completions_create := fun _ _ =>
       Raised (Exception "APIConnectionError" "Connection error.");
     httpx_client := Returned HttpxClient;
     httpx_post := fun _ _ =>
       Raised (Exception "ConnectError" "[Errno 111] Connection refused") |}.

(** The completion succeeds with an empty text. *)
Definition empty_completion : World :=
  {| tracer_span_id := 0x27df1f6642d34166;
     chat_completions_create := fun _ _ => Returned (completion_of "");
     httpx_client := Returned HttpxClient;
     httpx_post := fun _ _ => Returned {| status_code := 200 |} |}.

Definition mug : string := "Blue ceramic mug, 12oz, dishwasher safe.".

End Mock.

(** The calls of [client.chat.completions.create] in a trace, in order:
    the model and the messages of each. *)
Fixpoint completion_calls (tr : list event) : list (string * list ChatMessage) :=
  match tr with
  | [] => []
  | EvCompletion model msgs _ :: tr' => (model, msgs) :: completion_calls tr'
  | _ :: tr' => completion_calls tr'
  end.

(** How many HTTP clients a trace opens. *)
Fixpoint client_calls (tr : list event) : nat :=
  match tr with
  | [] => 0
  | EvHttpxClient _ :: tr' => S (client_calls tr')
  | _ :: tr' => client_calls tr'
  end.

(** ** The tutorial's run: the cells "Test the System" and "Send Feedback" *)

(** The sample [product_description]. *)
Definition product_description : string :=
  nl ++ "EcoFresh Water Bottle - A sustainable, insulated water bottle made from recycled materials." ++ nl
  ++ "Keeps drinks cold for 24 hours or hot for 12 hours. Available in various colors." ++ nl
  ++ "Features a leak-proof lid and carries 32oz of your favorite beverage." ++ nl.

Section Tutorial.

Context (w : World).

(** [generated_post, span_id = generate_post(product_description)]
    followed by [success = send_feedback_to_phoenix(span_id, feedback_type)];
    the tutorial sends "like" and names "dislike" as the other choice.
    What the cells print is not part of the model. *)
Definition generate_and_send
    (product_description feedback_type : string)
    : M (option string * option string * bool) :=
  '(generated_post, span_id) ← generate_post w product_description ;
  success ← send_feedback_to_phoenix w span_id feedback_type ;
  mret (generated_post, span_id, success).

End Tutorial.

(** ** The configuration cell: "Configure Phoenix and OpenAI" *)

Module Setup.

(** The calls the cell makes besides reading and writing [os.environ].
    They are taken to return and to leave [os.environ] as it is. *)
Inductive setup_event : Type :=
| EvLaunchApp
| EvRegister (project_name : string)
| EvSetTracerProvider
| EvGetTracer
| EvInstrument
| EvGetpass (prompt : string)
| EvOpenAI.

Definition PHOENIX_API_KEY : string := "PHOENIX_API_KEY".
Definition PHOENIX_CLIENT_HEADERS : string := "PHOENIX_CLIENT_HEADERS".
Definition PHOENIX_COLLECTOR_ENDPOINT : string := "PHOENIX_COLLECTOR_ENDPOINT".
Definition OPENAI_API_KEY : string := "OPENAI_API_KEY".

Definition getpass_prompt : string := "🔑 Enter your OpenAI API key: ".

(** [if "PHOENIX_API_KEY" in os.environ: ... else: px.launch_app().view()] *)
Definition configure_phoenix (environ : gmap string string)
    : gmap string string * list setup_event :=
  match environ !! PHOENIX_API_KEY with
  | Some api_key =>
      (<[ PHOENIX_COLLECTOR_ENDPOINT := "https://app.phoenix.arize.com" ]>
         (<[ PHOENIX_CLIENT_HEADERS := "api_key=" ++ api_key ]> environ),
       [])
  | None => (environ, [EvLaunchApp])
  end.

(** [register(...)], [trace.set_tracer_provider(...)],
    [trace.get_tracer(__name__)], [OpenAIInstrumentor().instrument(...)] *)
Definition register_tracer : list setup_event :=
  [ EvRegister "social-media-post-generator";
    EvSetTracerProvider; EvGetTracer; EvInstrument ].

(** [if not (openai_api_key := os.getenv("OPENAI_API_KEY")): ...];
    [getpass] gives what is typed at the prompt. *)
Definition configure_openai (getpass : string -> string)
    (environ : gmap string string) : gmap string string * list setup_event :=
  if negb (truthy (environ !! OPENAI_API_KEY)) then
    let openai_api_key := getpass getpass_prompt in
    (<[ OPENAI_API_KEY := openai_api_key ]> environ, [EvGetpass getpass_prompt])
  else (environ, []).

(** The whole cell, from [os.environ] as it finds it: the environment it
    leaves and the calls it makes, in order. *)
Definition configure (getpass : string -> string) (environ : gmap string string)
    : gmap string string * list setup_event :=
  let '(environ1, phoenix_events) := configure_phoenix environ in
  let '(environ2, openai_events) := configure_openai getpass environ1 in
  (environ2, (phoenix_events ++ register_tracer ++ openai_events ++ [EvOpenAI])%list).

End Setup.

(** The spans a trace opens, and how the spans it ends were ended. *)
Fixpoint started_spans (tr : list event) : list (string * gmap string string) :=
  match tr with
  | [] => []
  | EvStartSpan name attributes :: tr' => (name, attributes) :: started_spans tr'
  | _ :: tr' => started_spans tr'
  end.

Fixpoint ended_spans (tr : list event) : list (option exn) :=
  match tr with
  | [] => []
  | EvEndSpan exc :: tr' => exc :: ended_spans tr'
  | _ :: tr' => ended_spans tr'
  end.

(** ** More example worlds *)

Module Edge.

(** The completion call returns a response without any choice. *)
Definition no_choice : World :=
  {| tracer_span_id := 0x27df1f6642d34166;
     chat_completions_create := fun _ _ => Returned {| choices := [] |};
     httpx_client := Returned HttpxClient;
     httpx_post := fun _ _ => Returned {| status_code := 200 |} |}.

(** The tracer hands out the all-zero identifier of an invalid span. *)
Definition invalid_span : World :=
  {| tracer_span_id := 0;
     chat_completions_create := fun _ _ => Returned (Mock.completion_of "Great mug! #mugs");
     httpx_client := Returned HttpxClient;
     httpx_post := fun _ _ => Returned {| status_code := 200 |} |}.


(** The HTTP client cannot be built: the constructor rejects the proxy
    configured in the environment. *)
Definition no_client : World :=
  {| tracer_span_id := 0xabc123abc123abcd;
     chat_completions_create := fun _ _ => Returned (Mock.completion_of "Great mug! #mugs");
     httpx_client := Raised (Exception "ValueError" "Unknown scheme for proxy URL");
     httpx_post := fun _ _ => Returned {| status_code := 200 |} |}.

End Edge.

(** * Properties *)

(** ** [format(n, '016x')] *)

Section Format.

Lemma hex_digits_unfold (n : N) :
  hex_digits n =
    if decide (n < 16)%N then String (hex_digit n) EmptyString
    else hex_digits (n / 16) ++ String (hex_digit (n mod 16)) EmptyString.
Proof.
  rewrite hex_digits_equation_1.
  destruct (decide (n < 16)%N); reflexivity.
Qed.

Lemma length_append (s t : string) :
  String.length (s ++ t) = String.length s + String.length t.
Proof. induction s as [|c s IH]; simpl; [reflexivity | now rewrite IH]. Qed.

Lemma forallb_append (f : ascii -> bool) (s t : string) :
  string_forallb f (s ++ t) = string_forallb f s && string_forallb f t.
Proof.
  induction s as [|c s IH]; simpl; [reflexivity |].
  rewrite IH. now rewrite andb_assoc.
Qed.

Lemma hex_value_from_append (s t : string) : forall acc v,
  hex_value_from acc s = Some v ->
  hex_value_from acc (s ++ t) = hex_value_from v t.
Proof.
  induction s as [|c s IH]; simpl; intros acc v H.
  - now inversion H.
  - destruct (hex_digit_value c); [now apply IH | discriminate].
Qed.

Lemma hex_digit_value_hex_digit (d : N) :
  (d < 16)%N -> hex_digit_value (hex_digit d) = Some d.
Proof.
  intros H.
  assert (Hd : In d [0; 1; 2; 3; 4; 5; 6; 7; 8; 9; 10; 11; 12; 13; 14; 15]%N).
  { simpl. lia. }
  simpl in Hd; intuition (subst; reflexivity).
Qed.

Lemma is_lower_hex_hex_digit (d : N) : is_lower_hex (hex_digit d) = true.
Proof.
  destruct d as [|p]; [reflexivity |].
  do 4 (destruct p as [p|p|]; try reflexivity).
Qed.

(** A number below [16^k] has at most [k] digits, and at least one. *)
Lemma hex_digits_length_le (k : nat) : forall n : N,
  (n < 16 ^ N.of_nat (S k))%N -> String.length (hex_digits n) <= S k.
Proof.
  induction k as [|k IH]; intros n Hn; rewrite hex_digits_unfold.
  - destruct (decide (n < 16)%N) as [_|Hge]; [simpl; lia |].
    change (16 ^ N.of_nat 1)%N with 16%N in Hn. lia.
  - destruct (decide (n < 16)%N) as [_|Hge]; [simpl; lia |].
    rewrite length_append. simpl.
    assert (n / 16 < 16 ^ N.of_nat (S k))%N.
    { apply N.Div0.div_lt_upper_bound.
      rewrite <- N.pow_succ_r'. now rewrite <- Nat2N.inj_succ. }
    specialize (IH (n / 16)%N). lia.
Qed.

Lemma hex_digits_lower_hex (n : N) :
  string_forallb is_lower_hex (hex_digits n) = true.
Proof.
  funelim (hex_digits n); clear Heqcall.
  - simpl. now rewrite is_lower_hex_hex_digit.
  - rewrite forallb_append. simpl. rewrite is_lower_hex_hex_digit.
    match goal with IH : string_forallb _ _ = true |- _ => now rewrite IH end.
Qed.

Lemma hex_value_hex_digits (n : N) : hex_value (hex_digits n) = Some n.
Proof.
  unfold hex_value.
  funelim (hex_digits n); clear Heqcall.
  - simpl. rewrite hex_digit_value_hex_digit by assumption.
    f_equal; lia.
  - match goal with IH : hex_value_from _ _ = Some _ |- _ =>
      rewrite (hex_value_from_append _ _ _ _ IH) end.
    simpl. rewrite hex_digit_value_hex_digit by (apply N.mod_lt; lia).
    f_equal. simpl (0 + _)%N.
    rewrite (N.Div0.div_mod n 16) at 3. lia.
Qed.

Lemma length_zeros (k : nat) : String.length (zeros k) = k.
Proof. induction k; simpl; congruence. Qed.

Lemma zeros_lower_hex (k : nat) : string_forallb is_lower_hex (zeros k) = true.
Proof. induction k; simpl; [reflexivity | assumption]. Qed.

Lemma hex_value_from_zeros (k : nat) (s : string) :
  hex_value_from 0 (zeros k ++ s) = hex_value_from 0 s.
Proof. induction k; simpl; [reflexivity | assumption]. Qed.

(** What [format_016x] gives on a 64-bit value. *)
Lemma format_016x_64bit (n : Z) :
  (0 <= n < 2 ^ 64)%Z ->
  String.length (format_016x n) = 16
  /\ string_forallb is_lower_hex (format_016x n) = true
  /\ hex_value (format_016x n) = Some (Z.to_N n).
Proof.
  intros [H0 H64]. unfold format_016x.
  destruct (n <? 0)%Z eqn:Hneg; [apply Z.ltb_lt in Hneg; lia |].
  replace (Z.abs_N n) with (Z.to_N n) by (destruct n; simpl; [ | | lia]; reflexivity).
  assert (Hlen : String.length (hex_digits (Z.to_N n)) <= 16).
  { apply (hex_digits_length_le 15).
    change (16 ^ N.of_nat 16)%N with (Z.to_N (2 ^ 64)). lia. }
  repeat split.
  - rewrite length_append, length_zeros. lia.
  - rewrite forallb_append, zeros_lower_hex, hex_digits_lower_hex. reflexivity.
  - unfold hex_value. rewrite hex_value_from_zeros. apply hex_value_hex_digits.
Qed.

End Format.

(** ** Runs of the two functions *)

Ltac unfold_M :=
  unfold run, try_except, start_as_current_span, completions_create,
    httpx_Client, post, set_attribute, emit, lift,
    mbind, M_bind, mret, M_ret.

Section Runs.

Context (w : World).

(** The run in which the completion call returns a response with a
    first choice. *)
Lemma generate_post_returned (description : string)
    (r : ChatCompletion) (c : Choice) (cs : list Choice) :
  chat_completions_create w "gpt-4o" (messages description) = Returned r ->
  choices r = c :: cs ->
  run (generate_post w description) =
    (Returned (content (message c), Some (format_016x (tracer_span_id w))),
     [ EvStartSpan "Social media post" creation_attributes;
       EvSetAttribute SpanAttributes.INPUT_VALUE (Some description);
       EvCompletion "gpt-4o" (messages description) (Returned r);
       EvSetAttribute SpanAttributes.OUTPUT_VALUE (content (message c));
       EvEndSpan None ]).
Proof.
  intros Hr Hc. unfold generate_post. unfold_M.
  rewrite Hr. unfold getitem. rewrite Hc. reflexivity.
Qed.

(** The run in which the completion call raises. *)
Lemma generate_post_raised (description : string) (e : exn) :
  chat_completions_create w "gpt-4o" (messages description) = Raised e ->
  run (generate_post w description) =
    (Returned (Some ("Error generating post: " ++ exc_str e), None),
     [ EvStartSpan "Social media post" creation_attributes;
       EvSetAttribute SpanAttributes.INPUT_VALUE (Some description);
       EvCompletion "gpt-4o" (messages description) (Raised e);
       EvEndSpan (Some e) ]).
Proof.
  intros Hr. unfold generate_post. unfold_M.
  rewrite Hr. reflexivity.
Qed.

(** The run in which the response has no choice: [choices[0]] raises
    inside the [try]. *)
Lemma generate_post_no_choice (description : string) (r : ChatCompletion) :
  chat_completions_create w "gpt-4o" (messages description) = Returned r ->
  choices r = [] ->
  fst (run (generate_post w description)) =
    Returned (Some "Error generating post: list index out of range", None).
Proof.
  intros Hr Hc. unfold generate_post. unfold_M.
  rewrite Hr. unfold getitem. rewrite Hc. reflexivity.
Qed.

(** [generate_post] returns on every input. *)
Lemma generate_post_never_raises (description : string) :
  exists v, fst (run (generate_post w description)) = Returned v.
Proof.
  destruct (chat_completions_create w "gpt-4o" (messages description))
    as [r|e] eqn:Hr.
  - destruct (choices r) as [|c cs] eqn:Hc.
    + eexists. now apply generate_post_no_choice with (r := r).
    + eexists. now rewrite (generate_post_returned _ r c cs).
  - eexists. now rewrite (generate_post_raised _ e).
Qed.

(** The guard [if not span_id] taken. *)
Lemma send_feedback_falsy (span_id : option string) (feedback_type : string) :
  truthy span_id = false ->
  run (send_feedback_to_phoenix w span_id feedback_type) = (Returned false, []).
Proof.
  intros H. unfold send_feedback_to_phoenix. rewrite H. reflexivity.
Qed.

(** The guard passed and the client built: one POST, and the result
    read off how the POST ended. *)
Lemma send_feedback_truthy
    (span_id : option string) (feedback_type : string) (client : Client) :
  truthy span_id = true ->
  httpx_client w = Returned client ->
  let body := annotation_payload span_id feedback_type in
  run (send_feedback_to_phoenix w span_id feedback_type) =
    (Returned (relay_result (httpx_post w annotation_url body)),
     [ EvHttpxClient (Returned client);
       EvPost annotation_url body (httpx_post w annotation_url body) ]).
Proof.
  intros H Hclient body. unfold send_feedback_to_phoenix. rewrite H. unfold_M.
  rewrite Hclient. cbn [negb app]. fold body.
  destruct (httpx_post w annotation_url body); reflexivity.
Qed.

(** The guard passed and the client not built: [httpx.Client()] is
    called before the [try], so its exception leaves the relay, and
    nothing is posted. *)
Lemma send_feedback_client_raised
    (span_id : option string) (feedback_type : string) (e : exn) :
  truthy span_id = true ->
  httpx_client w = Raised e ->
  run (send_feedback_to_phoenix w span_id feedback_type) =
    (Raised e, [ EvHttpxClient (Raised e) ]).
Proof.
  intros H Hclient. unfold send_feedback_to_phoenix. rewrite H. unfold_M.
  rewrite Hclient. reflexivity.
Qed.

Lemma truthy_Some (s : string) : s <> "" -> truthy (Some s) = true.
Proof.
  intros H. unfold truthy. destruct (String.eqb_spec s ""); [contradiction | reflexivity].
Qed.

(** [send_feedback_to_phoenix] returns whenever the client can be built. *)
Lemma send_feedback_returns
    (span_id : option string) (feedback_type : string) (client : Client) :
  httpx_client w = Returned client ->
  exists b, fst (run (send_feedback_to_phoenix w span_id feedback_type)) = Returned b.
Proof.
  intros Hclient. destruct (truthy span_id) eqn:H.
  - eexists. now rewrite (send_feedback_truthy _ _ client).
  - eexists. now rewrite send_feedback_falsy.
Qed.

End Runs.

(** ** The post generator *)

(** C4: for every description, if the completion call raises an
    exception, [generate_post] does not re-raise: it returns a text that
    begins with "Error generating post:", followed by the stringified
    exception, and an absent identifier. *)
Theorem generate_post_completion_raises
    (w : World) (description : string) (e : exn) :
  chat_completions_create w "gpt-4o" (messages description) = Raised e ->
  exists text,
    fst (run (generate_post w description)) = Returned (Some text, None)
    /\ text = "Error generating post: " ++ exc_str e
    /\ String.prefix "Error generating post:" text = true.
Proof.
  intros Hr. eexists. rewrite (generate_post_raised w description e Hr).
  repeat split.
Qed.

Lemma generate_post_completion_raises_witness :
  exists text,
    fst (run (generate_post Mock.unreachable Mock.mug)) = Returned (Some text, None)
    /\ text = "Error generating post: Connection error."
    /\ String.prefix "Error generating post:" text = true.
Proof.
  apply (generate_post_completion_raises Mock.unreachable Mock.mug
           (Exception "APIConnectionError" "Connection error.")).
  reflexivity.
Defined.

(** C6: for every 64-bit span identifier [n] (0 <= n < 2^64) minted by
    the tracer, the identifier a successful [generate_post] returns is
    [n] in lower-case hexadecimal, zero-padded to exactly 16 characters:
    its length is 16, its characters are among 0-9 and a-f, and read
    back in base 16 it is [n]. *)
Theorem generate_post_span_id_16_hex
    (w : World) (description : string)
    (r : ChatCompletion) (c : Choice) (cs : list Choice) :
  (0 <= tracer_span_id w < 2 ^ 64)%Z ->
  chat_completions_create w "gpt-4o" (messages description) = Returned r ->
  choices r = c :: cs ->
  exists text identifier,
    fst (run (generate_post w description)) = Returned (text, Some identifier)
    /\ identifier = format_016x (tracer_span_id w)
    /\ (exists k, identifier = zeros k ++ hex_digits (Z.to_N (tracer_span_id w)))
    /\ String.length identifier = 16
    /\ string_forallb is_lower_hex identifier = true
    /\ hex_value identifier = Some (Z.to_N (tracer_span_id w)).
Proof.
  intros Hn Hr Hc. do 2 eexists.
  rewrite (generate_post_returned w description r c cs Hr Hc).
  destruct (format_016x_64bit _ Hn) as (Hlen & Hhex & Hval).
  repeat split; try assumption.
  unfold format_016x.
  destruct (tracer_span_id w <? 0)%Z eqn:Hneg; [apply Z.ltb_lt in Hneg; lia |].
  replace (Z.abs_N (tracer_span_id w)) with (Z.to_N (tracer_span_id w))
    by (destruct (tracer_span_id w); simpl; [ | | lia]; reflexivity).
  eexists. reflexivity.
Qed.

Lemma generate_post_span_id_16_hex_witness :
  exists text identifier,
    fst (run (generate_post Mock.scenario Mock.mug)) = Returned (text, Some identifier)
    /\ identifier = format_016x 0xabc123abc123abcd
    /\ (exists k, identifier = zeros k ++ hex_digits (Z.to_N 0xabc123abc123abcd))
    /\ String.length identifier = 16
    /\ string_forallb is_lower_hex identifier = true
    /\ hex_value identifier = Some (Z.to_N 0xabc123abc123abcd).
Proof.
  apply (generate_post_span_id_16_hex Mock.scenario Mock.mug
           (Mock.completion_of "Great mug! #mugs")
           {| message := {| content := Some "Great mug! #mugs" |} |} []).
  - simpl. lia.
  - reflexivity.
  - reflexivity.
Defined.

(** C7, as stated, fails: with a non-empty description and a completion
    call that does not raise but gives the empty string as content,
    [generate_post] returns the empty text (with a 16-character
    identifier); nothing in the code checks the text.  A text is
    non-empty when it is a string other than the empty one, which is
    what [truthy] tests. *)
Lemma generate_post_empty_text_counterexample :
  Mock.mug <> ""
  /\ chat_completions_create Mock.empty_completion "gpt-4o" (messages Mock.mug)
     = Returned (Mock.completion_of "")
  /\ fst (run (generate_post Mock.empty_completion Mock.mug))
     = Returned (Some "", Some "27df1f6642d34166")
  /\ ~ (forall (w : World) (description : string),
          description <> "" ->
          (exists r, chat_completions_create w "gpt-4o" (messages description)
                     = Returned r) ->
          exists text identifier,
            fst (run (generate_post w description)) = Returned (text, Some identifier)
            /\ truthy text = true
            /\ String.length identifier = 16).
Proof.
  split; [discriminate |]. split; [reflexivity |]. split; [reflexivity |].
  intros H.
  destruct (H Mock.empty_completion Mock.mug) as (text & identifier & Hrun & Htext & _).
  - discriminate.
  - eexists. reflexivity.
  - vm_compute in Hrun. injection Hrun as <- _. discriminate Htext.
Qed.

(** C7, amended: for every non-empty description, a [generate_post] call
    in which the completion call does not raise and the response has a
    first choice returns that choice's content, unchanged, as the text
    (so the text is non-empty exactly when that content is; a content
    that is [None] is returned as [None]) and, the
    span identifier being a 64-bit value, a 16-character lower-case
    hexadecimal identifier. *)
Theorem generate_post_returns_first_choice
    (w : World) (description : string)
    (r : ChatCompletion) (c : Choice) (cs : list Choice) :
  description <> "" ->
  (0 <= tracer_span_id w < 2 ^ 64)%Z ->
  chat_completions_create w "gpt-4o" (messages description) = Returned r ->
  choices r = c :: cs ->
  exists text identifier,
    fst (run (generate_post w description)) = Returned (text, Some identifier)
    /\ text = content (message c)
    /\ (truthy text = true <-> truthy (content (message c)) = true)
    /\ String.length identifier = 16
    /\ string_forallb is_lower_hex identifier = true.
Proof.
  intros _ Hn Hr Hc. do 2 eexists.
  rewrite (generate_post_returned w description r c cs Hr Hc).
  destruct (format_016x_64bit _ Hn) as (Hlen & Hhex & _).
  repeat split; auto.
Qed.

Lemma generate_post_returns_first_choice_witness :
  exists text identifier,
    fst (run (generate_post Mock.scenario Mock.mug)) = Returned (text, Some identifier)
    /\ text = Some "Great mug! #mugs"
    /\ (truthy text = true <-> truthy (Some "Great mug! #mugs") = true)
    /\ String.length identifier = 16
    /\ string_forallb is_lower_hex identifier = true.
Proof.
  apply (generate_post_returns_first_choice Mock.scenario Mock.mug
           (Mock.completion_of "Great mug! #mugs")
           {| message := {| content := Some "Great mug! #mugs" |} |} []).
  - discriminate.
  - simpl. lia.
  - reflexivity.
  - reflexivity.
Defined.

(** *** The span's attributes *)







(** With a text, the span ends with all three attributes. *)
Example generate_post_three_attributes :
  span_attributes (snd (run (generate_post Mock.scenario Mock.mug)))
  = <[ SpanAttributes.OUTPUT_VALUE := "Great mug! #mugs" ]>
      (<[ SpanAttributes.INPUT_VALUE := Mock.mug ]> creation_attributes).
Proof. reflexivity. Qed.

(** ** The feedback relay *)

Lemma label_like (feedback_type : string) :
  feedback_type = "like" -> label feedback_type = "👍" /\ score feedback_type = 1%Z.
Proof. intros ->. split; reflexivity. Qed.

Lemma label_other (feedback_type : string) :
  feedback_type <> "like" -> label feedback_type = "👎" /\ score feedback_type = 0%Z.
Proof.
  intros H. unfold label, score.
  destruct (String.eqb_spec feedback_type "like"); [contradiction | split; reflexivity].
Qed.

(** The three ways a run of the relay can go. *)
Lemma send_feedback_runs
    (w : World) (span_id : option string) (feedback_type : string) :
  (truthy span_id = false
   /\ run (send_feedback_to_phoenix w span_id feedback_type) = (Returned false, []))
  \/ (truthy span_id = true
      /\ exists client,
           httpx_client w = Returned client
           /\ run (send_feedback_to_phoenix w span_id feedback_type) =
                (Returned
                   (relay_result
                      (httpx_post w annotation_url
                         (annotation_payload span_id feedback_type))),
                 [ EvHttpxClient (Returned client);
                   EvPost annotation_url
                     (annotation_payload span_id feedback_type)
                     (httpx_post w annotation_url
                        (annotation_payload span_id feedback_type)) ]))
  \/ (truthy span_id = true
      /\ exists e,
           httpx_client w = Raised e
           /\ run (send_feedback_to_phoenix w span_id feedback_type) =
                (Raised e, [ EvHttpxClient (Raised e) ])).
Proof.
  destruct (truthy span_id) eqn:Ht.
  - right. destruct (httpx_client w) as [client|e] eqn:Hclient.
    + left. split; [reflexivity |]. exists client. split; [reflexivity |].
      apply (send_feedback_truthy w span_id feedback_type client Ht Hclient).
    + right. split; [reflexivity |]. exists e. split; [reflexivity |].
      apply (send_feedback_client_raised w span_id feedback_type e Ht Hclient).
  - left. split; [reflexivity |]. now apply send_feedback_falsy.
Qed.

(** Whatever the relay posts is the payload, sent to the annotation URL. *)
Lemma send_feedback_posts
    (w : World) (span_id : option string) (feedback_type : string)
    (url : string) (body : json) :
  In (url, body)
     (post_calls (snd (run (send_feedback_to_phoenix w span_id feedback_type)))) ->
  url = annotation_url /\ body = annotation_payload span_id feedback_type.
Proof.
  destruct (send_feedback_runs w span_id feedback_type)
    as [[_ Hrun] | [(_ & client & _ & Hrun) | (_ & e & _ & Hrun)]];
    rewrite Hrun; cbn [snd post_calls]; intros Hin.
  - destruct Hin.
  - destruct Hin as [Hin | []]. injection Hin as <- <-. split; reflexivity.
  - destruct Hin.
Qed.

(** C1: for every polarity string, the relay maps the exact literal
    "like" to label "👍" with score 1 and every other string (such as
    "dislike", "Like" or "LIKE") to label "👎" with score 0, and these are
    the label and the score of the result object of the payload it
    constructs; whatever it posts is that payload, and it posts it once
    its HTTP client is built. *)
Theorem feedback_label_score (span_id : option string) (feedback_type : string) :
  (feedback_type = "like" ->
     label feedback_type = "👍" /\ score feedback_type = 1%Z)
  /\ (feedback_type <> "like" ->
        label feedback_type = "👎" /\ score feedback_type = 0%Z)
  /\ (label "dislike", score "dislike") = ("👎", 0%Z)
  /\ (label "Like", score "Like") = ("👎", 0%Z)
  /\ (label "LIKE", score "LIKE") = ("👎", 0%Z)
  /\ (exists record result,
        annotation_record (annotation_payload span_id feedback_type) = Some record
        /\ Json.get "result" record = Some result
        /\ Json.get "label" result = Some (JStr (label feedback_type))
        /\ Json.get "score" result = Some (JNum (score feedback_type)))
  /\ (forall (w : World) (url : string) (body : json),
        In (url, body)
           (post_calls (snd (run (send_feedback_to_phoenix w span_id feedback_type)))) ->
        url = annotation_url /\ body = annotation_payload span_id feedback_type)
  /\ (forall (w : World) (client : Client),
        truthy span_id = true ->
        httpx_client w = Returned client ->
        post_calls (snd (run (send_feedback_to_phoenix w span_id feedback_type)))
        = [ (annotation_url, annotation_payload span_id feedback_type) ]).
Proof.
  split; [apply label_like |]. split; [apply label_other |].
  do 3 (split; [reflexivity |]).
  split; [| split].
  - do 2 eexists. repeat split.
  - intros w url body. apply send_feedback_posts.
  - intros w client H Hclient.
    rewrite (send_feedback_truthy w span_id feedback_type client H Hclient).
    reflexivity.
Qed.

(** C2: for every polarity, if the identifier is absent ([None]) or the
    empty string, the relay returns false and performs no HTTP POST: the
    trace of its run is empty, so the count of POSTs is zero. *)
Theorem send_feedback_absent_no_post (w : World) (feedback_type : string) :
  run (send_feedback_to_phoenix w None feedback_type) = (Returned false, [])
  /\ run (send_feedback_to_phoenix w (Some "") feedback_type) = (Returned false, [])
  /\ length (post_calls (snd (run (send_feedback_to_phoenix w None feedback_type)))) = 0
  /\ length (post_calls (snd (run (send_feedback_to_phoenix w (Some "") feedback_type)))) = 0.
Proof.
  rewrite !send_feedback_falsy by reflexivity. repeat split.
Qed.

(** C3, where the code departs from it: the relay does raise.  With a
    non-empty identifier and an environment in which [httpx.Client()]
    raises, the exception leaves [send_feedback_to_phoenix], because the
    client is built before the [try]; nothing is posted and no boolean
    is returned.  (Once the client is built, the relay behaves as C3
    says: see [send_feedback_truthy].) *)
Theorem send_feedback_raises_without_client :
  truthy (Some "abc123abc123abcd") = true
  /\ httpx_client Edge.no_client
     = Raised (Exception "ValueError" "Unknown scheme for proxy URL")
  /\ run (send_feedback_to_phoenix Edge.no_client (Some "abc123abc123abcd") "like")
     = (Raised (Exception "ValueError" "Unknown scheme for proxy URL"),
        [ EvHttpxClient
            (Raised (Exception "ValueError" "Unknown scheme for proxy URL")) ])
  /\ post_calls
       (snd (run (send_feedback_to_phoenix Edge.no_client
                    (Some "abc123abc123abcd") "like")))
     = [].
Proof. repeat split. Qed.

(** What the annotation record of the payload holds. *)
Lemma annotation_payload_fields (span_id : option string) (feedback_type : string) :
  exists record result,
    Json.get "data" (annotation_payload span_id feedback_type) = Some (JList [record])
    /\ Json.get "span_id" record = Some (Json.of_optional_str span_id)
    /\ Json.get "name" record = Some (JStr "user feedback")
    /\ Json.get "annotator_kind" record = Some (JStr "HUMAN")
    /\ Json.get "result" record = Some result
    /\ Json.get "label" result = Some (JStr (label feedback_type))
    /\ Json.get "score" result = Some (JNum (score feedback_type))
    /\ Json.get "explanation" result
       = Some (JStr ("User provided " ++ feedback_type ++ " feedback"))
    /\ Json.get "metadata" record = Some (JDict []).
Proof. do 2 eexists. repeat split. Qed.

(** C5, as stated, fails: the empty string is an identifier that is not
    absent, and for it the relay constructs and posts no payload.  Nor
    does it for a non-empty identifier when its HTTP client cannot be
    built: the payload is constructed after the client. *)
Lemma send_feedback_empty_id_counterexample :
  Some "" <> (None : option string)
  /\ run (send_feedback_to_phoenix Mock.scenario (Some "") "like")
     = (Returned false, [])
  /\ post_calls (snd (run (send_feedback_to_phoenix Mock.scenario (Some "") "like")))
     = []
  /\ post_calls
       (snd (run (send_feedback_to_phoenix Edge.no_client
                    (Some "abc123abc123abcd") "like")))
     = [].
Proof. repeat split. discriminate. Qed.

(** C5, amended: for every non-empty identifier string [s] and polarity
    [p], the relay, once its HTTP client is built, constructs, and posts
    to the annotation endpoint, a JSON payload whose "data" list has
    exactly one record, with span_id
    equal to [s], name "user feedback", annotator_kind "HUMAN", a result
    object with the mapped label, the mapped score and the explanation
    "User provided " ++ p ++ " feedback", and an empty metadata object. *)
Theorem send_feedback_payload (w : World) (s p : string) (client : Client) :
  s <> "" ->
  httpx_client w = Returned client ->
  exists payload record result,
    post_calls (snd (run (send_feedback_to_phoenix w (Some s) p)))
      = [ (annotation_url, payload) ]
    /\ Json.get "data" payload = Some (JList [record])
    /\ Json.get "span_id" record = Some (JStr s)
    /\ Json.get "name" record = Some (JStr "user feedback")
    /\ Json.get "annotator_kind" record = Some (JStr "HUMAN")
    /\ Json.get "result" record = Some result
    /\ Json.get "label" result = Some (JStr (label p))
    /\ Json.get "score" result = Some (JNum (score p))
    /\ Json.get "explanation" result
       = Some (JStr ("User provided " ++ p ++ " feedback"))
    /\ Json.get "metadata" record = Some (JDict []).
Proof.
  intros Hs Hclient.
  destruct (annotation_payload_fields (Some s) p) as (record & result & H).
  exists (annotation_payload (Some s) p), record, result.
  split; [| exact H].
  rewrite (send_feedback_truthy w (Some s) p client (truthy_Some s Hs) Hclient).
  reflexivity.
Qed.

Lemma send_feedback_payload_witness :
  exists payload record result,
    post_calls (snd (run (send_feedback_to_phoenix Mock.scenario
                            (Some "abc123abc123abcd") "like")))
      = [ (annotation_url, payload) ]
    /\ Json.get "data" payload = Some (JList [record])
    /\ Json.get "span_id" record = Some (JStr "abc123abc123abcd")
    /\ Json.get "name" record = Some (JStr "user feedback")
    /\ Json.get "annotator_kind" record = Some (JStr "HUMAN")
    /\ Json.get "result" record = Some result
    /\ Json.get "label" result = Some (JStr "👍")
    /\ Json.get "score" result = Some (JNum 1)
    /\ Json.get "explanation" result = Some (JStr "User provided like feedback")
    /\ Json.get "metadata" record = Some (JDict []).
Proof.
  apply (send_feedback_payload Mock.scenario "abc123abc123abcd" "like" HttpxClient).
  - discriminate.
  - reflexivity.
Defined.

Lemma relay_result_status_of (o : outcome Response) :
  relay_result o =
    match status_of o with
    | Some code => (code =? 200)%Z
    | None => false
    end.
Proof. destruct o; reflexivity. Qed.

(** C9: the boolean the relay returns does not depend on the polarity:
    for the same identifier and an endpoint that responds the same way to
    both requests (the same status code, or a failure both times), the
    relay returns the same for any two polarities. *)
Theorem send_feedback_polarity_independent
    (w : World) (span_id : option string) (p1 p2 : string) :
  status_of (httpx_post w annotation_url (annotation_payload span_id p1))
  = status_of (httpx_post w annotation_url (annotation_payload span_id p2)) ->
  fst (run (send_feedback_to_phoenix w span_id p1))
  = fst (run (send_feedback_to_phoenix w span_id p2)).
Proof.
  intros H. destruct (truthy span_id) eqn:Ht.
  - destruct (httpx_client w) as [client|e] eqn:Hclient.
    + rewrite !(send_feedback_truthy w span_id _ client Ht Hclient). cbn [fst].
      rewrite !relay_result_status_of, H. reflexivity.
    + rewrite !(send_feedback_client_raised w span_id _ e Ht Hclient).
      reflexivity.
  - rewrite !send_feedback_falsy by assumption. reflexivity.
Qed.

Lemma send_feedback_polarity_independent_witness :
  fst (run (send_feedback_to_phoenix Mock.not_found (Some "abc123abc123abcd") "like"))
  = fst (run (send_feedback_to_phoenix Mock.not_found (Some "abc123abc123abcd") "dislike")).
Proof.
  apply (send_feedback_polarity_independent Mock.not_found
           (Some "abc123abc123abcd") "like" "dislike").
  reflexivity.
Defined.

(** C10, as stated, fails: with a non-empty identifier and an
    environment in which [httpx.Client()] raises, the relay attempts no
    POST: the client is built first, and without it nothing is sent. *)
Lemma send_feedback_no_client_counterexample :
  "garbage" <> ""
  /\ run (send_feedback_to_phoenix Edge.no_client (Some "garbage") "like")
     = (Raised (Exception "ValueError" "Unknown scheme for proxy URL"),
        [ EvHttpxClient
            (Raised (Exception "ValueError" "Unknown scheme for proxy URL")) ])
  /\ post_calls (snd (run (send_feedback_to_phoenix Edge.no_client
                             (Some "garbage") "like")))
     = [].
Proof. repeat split. discriminate. Qed.

(** C10, amended: the relay does not validate the format of the
    identifier: for every non-empty identifier string [s], whether or
    not it is 16 hexadecimal characters, once its HTTP client is built
    it attempts the POST and places [s] verbatim in the span_id field of
    the payload. *)
Theorem send_feedback_no_id_validation
    (w : World) (s feedback_type : string) (client : Client) :
  s <> "" ->
  httpx_client w = Returned client ->
  exists payload record,
    snd (run (send_feedback_to_phoenix w (Some s) feedback_type))
      = [ EvHttpxClient (Returned client);
          EvPost annotation_url payload (httpx_post w annotation_url payload) ]
    /\ annotation_record payload = Some record
    /\ Json.get "span_id" record = Some (JStr s).
Proof.
  intros Hs Hclient. do 2 eexists.
  rewrite (send_feedback_truthy w (Some s) feedback_type client
             (truthy_Some s Hs) Hclient).
  repeat split.
Qed.

Lemma send_feedback_no_id_validation_witness :
  exists payload record,
    snd (run (send_feedback_to_phoenix Mock.scenario (Some "garbage") "like"))
      = [ EvHttpxClient (Returned HttpxClient);
          EvPost annotation_url payload (httpx_post Mock.scenario annotation_url payload) ]
    /\ annotation_record payload = Some record
    /\ Json.get "span_id" record = Some (JStr "garbage").
Proof.
  apply (send_feedback_no_id_validation Mock.scenario "garbage" "like" HttpxClient).
  - discriminate.
  - reflexivity.
Defined.

(** The all-zero identifier is posted like any other. *)
Example send_feedback_all_zero_id :
  run (send_feedback_to_phoenix Mock.scenario (Some "0000000000000000") "dislike")
  = (Returned true,
     [ EvHttpxClient (Returned HttpxClient);
       EvPost annotation_url
         (annotation_payload (Some "0000000000000000") "dislike")
         (Returned {| status_code := 200 |}) ]).
Proof. reflexivity. Qed.

(** The relay against endpoints that answer 404 or are unreachable. *)
Example send_feedback_round_trip :
  fst (run (send_feedback_to_phoenix Mock.scenario (Some "abc123abc123abcd") "like"))
    = Returned true
  /\ fst (run (send_feedback_to_phoenix Mock.not_found (Some "abc123abc123abcd") "like"))
    = Returned false
  /\ fst (run (send_feedback_to_phoenix Mock.unreachable (Some "abc123abc123abcd") "like"))
    = Returned false.
Proof. repeat split. Qed.

(** * Further properties *)

(** ** The identifier format, beyond 64 bits *)

Section FormatWidth.

Lemma format_016x_nonneg (n : Z) :
  (0 <= n)%Z ->
  format_016x n
  = zeros (16 - String.length (hex_digits (Z.to_N n))) ++ hex_digits (Z.to_N n).
Proof.
  intros Hn. unfold format_016x.
  destruct (n <? 0)%Z eqn:Hneg; [apply Z.ltb_lt in Hneg; lia |].
  replace (Z.abs_N n) with (Z.to_N n)
    by (destruct n; simpl; [ | | lia]; reflexivity).
  reflexivity.
Qed.

Lemma format_016x_nonneg_value (n : Z) :
  (0 <= n)%Z -> hex_value (format_016x n) = Some (Z.to_N n).
Proof.
  intros Hn. rewrite (format_016x_nonneg n Hn).
  unfold hex_value. rewrite hex_value_from_zeros. apply hex_value_hex_digits.
Qed.

Lemma hex_digits_length_pos (n : N) : 1 <= String.length (hex_digits n).
Proof.
  rewrite hex_digits_unfold.
  destruct (decide (n < 16)%N); [simpl; lia |].
  rewrite length_append. simpl. lia.
Qed.

(** A number from [16^k] on has more than [k] digits. *)
Lemma hex_digits_length_gt (k : nat) : forall n : N,
  (16 ^ N.of_nat k <= n)%N -> k < String.length (hex_digits n).
Proof.
  induction k as [|k IH]; intros n Hn.
  - apply hex_digits_length_pos.
  - rewrite Nat2N.inj_succ, N.pow_succ_r' in Hn.
    assert (H16 : (16 <= n)%N).
    { assert (16 ^ N.of_nat k <> 0)%N by (apply N.pow_nonzero; lia).
      nia. }
    rewrite hex_digits_unfold.
    destruct (decide (n < 16)%N) as [Hlt|_]; [lia |].
    rewrite length_append. simpl.
    assert (16 ^ N.of_nat k <= n / 16)%N
      by (apply N.div_le_lower_bound; lia).
    specialize (IH (n / 16)%N). lia.
Qed.

End FormatWidth.

(** X1: two different non-negative span identifiers are never formatted
    to the same string: the identifier read back in base 16 is the span
    identifier, whatever its size. *)
Theorem format_016x_distinct (m n : Z) :
  (0 <= m)%Z -> (0 <= n)%Z -> m <> n ->
  format_016x m <> format_016x n
  /\ hex_value (format_016x m) = Some (Z.to_N m)
  /\ hex_value (format_016x n) = Some (Z.to_N n).
Proof.
  intros Hm Hn Hne.
  pose proof (format_016x_nonneg_value m Hm) as Vm.
  pose proof (format_016x_nonneg_value n Hn) as Vn.
  split; [| split; assumption].
  intros Heq. rewrite Heq, Vn in Vm.
  injection Vm as Vm. apply Hne. lia.
Qed.

Lemma format_016x_distinct_witness :
  format_016x 1 <> format_016x (2 ^ 64)
  /\ hex_value (format_016x 1) = Some (Z.to_N 1)
  /\ hex_value (format_016x (2 ^ 64)) = Some (Z.to_N (2 ^ 64)).
Proof.
  apply (format_016x_distinct 1 (2 ^ 64)); lia.
Defined.

(** X2: the format never truncates: a non-negative span identifier is
    formatted to at least 16 characters, and to exactly 16 if and only
    if it is below 2^64. *)
Theorem format_016x_width (n : Z) :
  (0 <= n)%Z ->
  16 <= String.length (format_016x n)
  /\ (String.length (format_016x n) = 16 <-> (n < 2 ^ 64)%Z).
Proof.
  intros Hn. rewrite (format_016x_nonneg n Hn).
  rewrite length_append, length_zeros.
  split; [lia |].
  split.
  - intros Hlen.
    destruct (Z.lt_ge_cases n (2 ^ 64)) as [Hlt | Hge]; [assumption |].
    assert (16 < String.length (hex_digits (Z.to_N n))).
    { apply (hex_digits_length_gt 16).
      change (16 ^ N.of_nat 16)%N with (Z.to_N (2 ^ 64)). lia. }
    lia.
  - intros Hlt.
    assert (String.length (hex_digits (Z.to_N n)) <= 16).
    { apply (hex_digits_length_le 15).
      change (16 ^ N.of_nat 16)%N with (Z.to_N (2 ^ 64)). lia. }
    lia.
Qed.

Lemma format_016x_width_witness :
  16 <= String.length (format_016x (2 ^ 64))
  /\ (String.length (format_016x (2 ^ 64)) = 16 <-> (2 ^ 64 < 2 ^ 64)%Z).
Proof.
  apply (format_016x_width (2 ^ 64)). lia.
Defined.

(** ** Every run of [generate_post] *)

Section GeneratePostRuns.

Context (w : World).

(** The run in which the response has no choice, with its trace. *)
Lemma generate_post_no_choice_run (description : string) (r : ChatCompletion) :
  chat_completions_create w "gpt-4o" (messages description) = Returned r ->
  choices r = [] ->
  run (generate_post w description) =
    (Returned (Some "Error generating post: list index out of range", None),
     [ EvStartSpan "Social media post" creation_attributes;
       EvSetAttribute SpanAttributes.INPUT_VALUE (Some description);
       EvCompletion "gpt-4o" (messages description) (Returned r);
       EvEndSpan (Some (Exception "IndexError" "list index out of range")) ]).
Proof.
  intros Hr Hc. unfold generate_post. unfold_M.
  rewrite Hr. unfold getitem. rewrite Hc. reflexivity.
Qed.

(** The three ways a run can go. *)
Lemma generate_post_paths (description : string) :
  (exists r c cs,
      chat_completions_create w "gpt-4o" (messages description) = Returned r
      /\ choices r = c :: cs
      /\ run (generate_post w description) =
           (Returned (content (message c), Some (format_016x (tracer_span_id w))),
            [ EvStartSpan "Social media post" creation_attributes;
              EvSetAttribute SpanAttributes.INPUT_VALUE (Some description);
              EvCompletion "gpt-4o" (messages description) (Returned r);
              EvSetAttribute SpanAttributes.OUTPUT_VALUE (content (message c));
              EvEndSpan None ]))
  \/ (exists r,
        chat_completions_create w "gpt-4o" (messages description) = Returned r
        /\ choices r = []
        /\ run (generate_post w description) =
             (Returned (Some "Error generating post: list index out of range", None),
              [ EvStartSpan "Social media post" creation_attributes;
                EvSetAttribute SpanAttributes.INPUT_VALUE (Some description);
                EvCompletion "gpt-4o" (messages description) (Returned r);
                EvEndSpan (Some (Exception "IndexError" "list index out of range")) ]))
  \/ (exists e,
        chat_completions_create w "gpt-4o" (messages description) = Raised e
        /\ run (generate_post w description) =
             (Returned (Some ("Error generating post: " ++ exc_str e), None),
              [ EvStartSpan "Social media post" creation_attributes;
                EvSetAttribute SpanAttributes.INPUT_VALUE (Some description);
                EvCompletion "gpt-4o" (messages description) (Raised e);
                EvEndSpan (Some e) ])).
Proof.
  destruct (chat_completions_create w "gpt-4o" (messages description))
    as [r|e] eqn:Hr.
  - destruct (choices r) as [|c cs] eqn:Hc.
    + right; left. exists r. repeat split; try assumption.
      apply (generate_post_no_choice_run description r Hr Hc).
    + left. exists r, c, cs. repeat split; try assumption.
      apply (generate_post_returned w description r c cs Hr Hc).
  - right; right. exists e. split; [reflexivity |].
    apply (generate_post_raised w description e Hr).
Qed.

(** Started from any trace, [generate_post] does what it does from the
    empty one and appends its events. *)
Lemma generate_post_from (description : string) (tr : list event) :
  generate_post w description tr
  = (fst (run (generate_post w description)),
     (tr ++ snd (run (generate_post w description)))%list).
Proof.
  unfold generate_post. unfold_M.
  destruct (chat_completions_create w "gpt-4o" (messages description)) as [r|e].
  - unfold getitem. destruct (choices r) as [|c cs]; cbn;
      rewrite <- ?app_assoc; reflexivity.
  - cbn. rewrite <- ?app_assoc. reflexivity.
Qed.

End GeneratePostRuns.

(** X3: [generate_post] never raises, whatever the tracer and the
    completion client do.  It returns either the content of the first
    choice together with the formatted span identifier, or a text that
    starts with "Error generating post: " together with no identifier. *)
Theorem generate_post_result_shape (w : World) (description : string) :
  exists text identifier,
    fst (run (generate_post w description)) = Returned (text, identifier)
    /\ ((identifier = Some (format_016x (tracer_span_id w))
         /\ exists r c cs,
              chat_completions_create w "gpt-4o" (messages description) = Returned r
              /\ choices r = c :: cs
              /\ text = content (message c))
        \/ (identifier = None
            /\ exists reason, text = Some ("Error generating post: " ++ reason))).
Proof.
  destruct (generate_post_paths w description)
    as [(r & c & cs & Hr & Hc & Hrun) | [(r & Hr & Hc & Hrun) | (e & Hr & Hrun)]];
    rewrite Hrun; do 2 eexists; (split; [reflexivity |]).
  - left. split; [reflexivity |]. exists r, c, cs. repeat split; assumption.
  - right. split; [reflexivity |]. exists "list index out of range". reflexivity.
  - right. split; [reflexivity |]. exists (exc_str e). reflexivity.
Qed.

(** X4: every call of [generate_post] calls
    [client.chat.completions.create] exactly once, whether that call
    returns or raises: the code does not call it again after a failure.
    The call names the model "gpt-4o" and passes a system message
    followed by a user message whose content is the prompt template with
    the description in its place.  (What the client library does inside
    that one call, its own retries included, is not part of the model.) *)
Theorem generate_post_one_create_call (w : World) (description : string) :
  completion_calls (snd (run (generate_post w description)))
  = [ ("gpt-4o",
       [ [("role", "system");
          ("content", "You are a helpful social media content creator.")];
         [("role", "user");
          ("content",
           PROMPT_TEMPLATE_before ++ description ++ PROMPT_TEMPLATE_after)] ]) ].
Proof.
  destruct (generate_post_paths w description)
    as [(r & c & cs & Hr & Hc & Hrun) | [(r & Hr & Hc & Hrun) | (e & Hr & Hrun)]];
    rewrite Hrun; reflexivity.
Qed.

(** X5: every call of [generate_post] opens exactly one span, named
    "Social media post", as its first action and ends it as its last,
    also when the generation fails; the span is ended without an
    exception exactly when an identifier is returned. *)
Theorem generate_post_span_lifecycle (w : World) (description : string) :
  exists exc,
    started_spans (snd (run (generate_post w description)))
      = [ ("Social media post", creation_attributes) ]
    /\ ended_spans (snd (run (generate_post w description))) = [ exc ]
    /\ hd_error (snd (run (generate_post w description)))
       = Some (EvStartSpan "Social media post" creation_attributes)
    /\ last (snd (run (generate_post w description))) = Some (EvEndSpan exc)
    /\ (exc = None <->
        exists text identifier,
          fst (run (generate_post w description)) = Returned (text, Some identifier)).
Proof.
  destruct (generate_post_paths w description)
    as [(r & c & cs & Hr & Hc & Hrun) | [(r & Hr & Hc & Hrun) | (e & Hr & Hrun)]];
    rewrite Hrun; eexists; (do 4 (split; [reflexivity |])); cbn [fst].
  - split; [intros _; do 2 eexists; reflexivity | reflexivity].
  - split; [discriminate | intros (text & identifier & H); discriminate].
  - split; [discriminate | intros (text & identifier & H); discriminate].
Qed.



(** X7: when the completion call returns a response with no choice,
    [response.choices[0]] raises inside the [try]: the call returns the
    text "Error generating post: list index out of range" and no
    identifier, sets no output value, and ends the span with the
    [IndexError] recorded on it. *)
Theorem generate_post_empty_choices
    (w : World) (description : string) (r : ChatCompletion) :
  chat_completions_create w "gpt-4o" (messages description) = Returned r ->
  choices r = [] ->
  fst (run (generate_post w description))
    = Returned (Some "Error generating post: list index out of range", None)
  /\ set_attribute_calls (snd (run (generate_post w description)))
     = [ (SpanAttributes.INPUT_VALUE, Some description) ]
  /\ ended_spans (snd (run (generate_post w description)))
     = [ Some (Exception "IndexError" "list index out of range") ].
Proof.
  intros Hr Hc. rewrite (generate_post_no_choice_run w description r Hr Hc).
  repeat split.
Qed.

Lemma generate_post_empty_choices_witness :
  fst (run (generate_post Edge.no_choice Mock.mug))
    = Returned (Some "Error generating post: list index out of range", None)
  /\ set_attribute_calls (snd (run (generate_post Edge.no_choice Mock.mug)))
     = [ (SpanAttributes.INPUT_VALUE, Some Mock.mug) ]
  /\ ended_spans (snd (run (generate_post Edge.no_choice Mock.mug)))
     = [ Some (Exception "IndexError" "list index out of range") ].
Proof.
  apply (generate_post_empty_choices Edge.no_choice Mock.mug {| choices := [] |}).
  - reflexivity.
  - reflexivity.
Defined.

(** ** The prompt *)

Lemma append_cancel_l (s a b : string) : s ++ a = s ++ b -> a = b.
Proof.
  induction s as [|c s IH]; simpl; intros H; [assumption |].
  injection H as H. now apply IH.
Qed.

Lemma append_cancel_r (t : string) : forall a b : string, a ++ t = b ++ t -> a = b.
Proof.
  induction a as [|c a IH]; intros b H.
  - destruct b as [|d b]; [reflexivity |].
    apply (f_equal String.length) in H.
    rewrite !length_append in H. simpl in H. lia.
  - destruct b as [|d b].
    + apply (f_equal String.length) in H.
      rewrite !length_append in H. simpl in H. lia.
    + simpl in H. injection H as -> H. f_equal. now apply IH.
Qed.

(** X8: the description goes into the prompt verbatim, so two different
    descriptions never give the same prompt, nor the same request
    messages; the prompt is longer than the description by the fixed
    length of the template. *)
Theorem prompt_distinct (d1 d2 : string) :
  d1 <> d2 ->
  PROMPT_TEMPLATE_format d1 <> PROMPT_TEMPLATE_format d2
  /\ messages d1 <> messages d2
  /\ String.length (PROMPT_TEMPLATE_format d1)
     = String.length PROMPT_TEMPLATE_before + String.length d1
       + String.length PROMPT_TEMPLATE_after.
Proof.
  intros Hne.
  assert (Hp : PROMPT_TEMPLATE_format d1 <> PROMPT_TEMPLATE_format d2).
  { unfold PROMPT_TEMPLATE_format. intros H.
    apply append_cancel_l, append_cancel_r in H. contradiction. }
  split; [exact Hp |]. split.
  - unfold messages. intros H. apply Hp. congruence.
  - unfold PROMPT_TEMPLATE_format. rewrite !length_append. lia.
Qed.

Lemma prompt_distinct_witness :
  PROMPT_TEMPLATE_format "mug" <> PROMPT_TEMPLATE_format "{mug}"
  /\ messages "mug" <> messages "{mug}"
  /\ String.length (PROMPT_TEMPLATE_format "mug")
     = String.length PROMPT_TEMPLATE_before + String.length "mug"
       + String.length PROMPT_TEMPLATE_after.
Proof.
  apply (prompt_distinct "mug" "{mug}"). discriminate.
Defined.

(** ** Every run of the feedback relay *)

(** Started from any trace, the relay does what it does from the empty
    one and appends its events. *)
Lemma send_feedback_from
    (w : World) (span_id : option string) (feedback_type : string)
    (tr : list event) :
  send_feedback_to_phoenix w span_id feedback_type tr
  = (fst (run (send_feedback_to_phoenix w span_id feedback_type)),
     (tr ++ snd (run (send_feedback_to_phoenix w span_id feedback_type)))%list).
Proof.
  unfold send_feedback_to_phoenix.
  destruct (truthy span_id); cbn [negb].
  - unfold_M. destruct (httpx_client w).
    + destruct (httpx_post w annotation_url
                  (annotation_payload span_id feedback_type));
        cbn; rewrite <- ?app_assoc; reflexivity.
    + reflexivity.
  - unfold_M. cbn. now rewrite app_nil_r.
Qed.

(** X9: every run of the relay, for every identifier, absent or not,
    and every polarity.  It builds a client exactly when the identifier
    is non-empty, and makes at most one POST, to the annotation URL with
    the payload.  With an empty or absent identifier it returns false.
    With a non-empty identifier and the client built, it makes exactly
    one POST and does not raise: it returns true when the POST gave a
    response with status 200 and false when it gave another status or
    raised.  With a non-empty identifier and [httpx.Client()] raising,
    that exception leaves the relay and nothing is posted.  The relay
    opens no span and sends no completion request. *)
Theorem send_feedback_at_most_one_post
    (w : World) (span_id : option string) (feedback_type : string) :
  client_calls (snd (run (send_feedback_to_phoenix w span_id feedback_type)))
    = (if truthy span_id then 1 else 0)
  /\ length (post_calls (snd (run (send_feedback_to_phoenix w span_id feedback_type))))
     <= 1
  /\ (forall url body,
        In (url, body)
           (post_calls (snd (run (send_feedback_to_phoenix w span_id feedback_type)))) ->
        url = annotation_url /\ body = annotation_payload span_id feedback_type)
  /\ started_spans (snd (run (send_feedback_to_phoenix w span_id feedback_type))) = []
  /\ completion_calls (snd (run (send_feedback_to_phoenix w span_id feedback_type))) = []
  /\ (truthy span_id = false ->
      run (send_feedback_to_phoenix w span_id feedback_type) = (Returned false, []))
  /\ (forall client,
        truthy span_id = true ->
        httpx_client w = Returned client ->
        fst (run (send_feedback_to_phoenix w span_id feedback_type))
          = Returned
              (match httpx_post w annotation_url
                       (annotation_payload span_id feedback_type) with
               | Returned response => (status_code response =? 200)%Z
               | Raised _ => false
               end)
        /\ post_calls (snd (run (send_feedback_to_phoenix w span_id feedback_type)))
           = [ (annotation_url, annotation_payload span_id feedback_type) ])
  /\ (forall e,
        truthy span_id = true ->
        httpx_client w = Raised e ->
        fst (run (send_feedback_to_phoenix w span_id feedback_type)) = Raised e
        /\ post_calls (snd (run (send_feedback_to_phoenix w span_id feedback_type)))
           = []).
Proof.
  split; [| split; [| split; [apply send_feedback_posts |]]].
  - destruct (send_feedback_runs w span_id feedback_type)
      as [[Ht Hrun] | [(Ht & client & _ & Hrun) | (Ht & e & _ & Hrun)]];
      rewrite Hrun, Ht; reflexivity.
  - destruct (send_feedback_runs w span_id feedback_type)
      as [[Ht Hrun] | [(Ht & client & _ & Hrun) | (Ht & e & _ & Hrun)]];
      rewrite Hrun; cbn; lia.
  - split; [| split].
    + destruct (send_feedback_runs w span_id feedback_type)
        as [[Ht Hrun] | [(Ht & client & _ & Hrun) | (Ht & e & _ & Hrun)]];
        rewrite Hrun; reflexivity.
    + destruct (send_feedback_runs w span_id feedback_type)
        as [[Ht Hrun] | [(Ht & client & _ & Hrun) | (Ht & e & _ & Hrun)]];
        rewrite Hrun; reflexivity.
    + split; [apply send_feedback_falsy |]. split.
      * intros client Ht Hclient.
        rewrite (send_feedback_truthy w span_id feedback_type client Ht Hclient).
        split; reflexivity.
      * intros e Ht Hclient.
        rewrite (send_feedback_client_raised w span_id feedback_type e Ht Hclient).
        split; reflexivity.
Qed.

Lemma of_optional_str_inj (i1 i2 : option string) :
  Json.of_optional_str i1 = Json.of_optional_str i2 -> i1 = i2.
Proof.
  destruct i1, i2; simpl; intros H; try discriminate; congruence.
Qed.

(** X10: the payload keeps the identifier and the polarity apart: two
    calls that differ in the identifier or in the polarity never build
    the same payload, even when the two polarities are mapped to the
    same label and score. *)
Theorem annotation_payload_distinct
    (i1 i2 : option string) (p1 p2 : string) :
  i1 <> i2 \/ p1 <> p2 ->
  annotation_payload i1 p1 <> annotation_payload i2 p2.
Proof.
  intros Hne Heq. unfold annotation_payload in Heq.
  injection Heq as Hid _ _ Hexp.
  apply of_optional_str_inj in Hid.
  apply append_cancel_l, append_cancel_r in Hexp.
  destruct Hne; contradiction.
Qed.

Lemma annotation_payload_distinct_witness :
  annotation_payload (Some "abc123abc123abcd") "dislike"
  <> annotation_payload (Some "abc123abc123abcd") "Like".
Proof.
  apply (annotation_payload_distinct
           (Some "abc123abc123abcd") (Some "abc123abc123abcd") "dislike" "Like").
  right. discriminate.
Defined.

(** ** Generation followed by feedback *)

Lemma format_016x_nonempty (n : Z) : format_016x n <> "".
Proof.
  unfold format_016x. destruct (n <? 0)%Z; [discriminate |].
  intros H. apply (f_equal String.length) in H.
  rewrite length_append in H. simpl in H.
  pose proof (hex_digits_length_pos (Z.abs_N n)). lia.
Qed.

Lemma generate_and_send_run (w : World) (description feedback_type : string) :
  run (generate_and_send w description feedback_type)
  = match fst (run (generate_post w description)) with
    | Returned (text, identifier) =>
        (match fst (run (send_feedback_to_phoenix w identifier feedback_type)) with
         | Returned success => Returned (text, identifier, success)
         | Raised e => Raised e
         end,
         (snd (run (generate_post w description))
          ++ snd (run (send_feedback_to_phoenix w identifier feedback_type)))%list)
    | Raised e => (Raised e, snd (run (generate_post w description)))
    end.
Proof.
  unfold generate_and_send, run at 1. unfold mbind at 1, M_bind.
  rewrite generate_post_from. cbn [app].
  destruct (fst (run (generate_post w description))) as [[text identifier]|e];
    [| reflexivity].
  unfold mbind, M_bind. rewrite send_feedback_from.
  destruct (fst (run (send_feedback_to_phoenix w identifier feedback_type)));
    reflexivity.
Qed.

Lemma generate_post_no_post (w : World) (description : string) :
  post_calls (snd (run (generate_post w description))) = []
  /\ client_calls (snd (run (generate_post w description))) = 0.
Proof.
  destruct (generate_post_paths w description)
    as [(r & c & cs & Hr & Hc & Hrun) | [(r & Hr & Hc & Hrun) | (e & Hr & Hrun)]];
    rewrite Hrun; split; reflexivity.
Qed.

(** X11: when [generate_post] returns no identifier, sending feedback
    with what it returned reports failure and contacts nobody: the run
    makes no HTTP request and opens no client, for every polarity. *)
Theorem generate_and_send_after_failure
    (w : World) (description feedback_type : string) (text : option string) :
  fst (run (generate_post w description)) = Returned (text, None) ->
  fst (run (generate_and_send w description feedback_type))
    = Returned (text, None, false)
  /\ snd (run (generate_and_send w description feedback_type))
     = snd (run (generate_post w description))
  /\ post_calls (snd (run (generate_and_send w description feedback_type))) = []
  /\ client_calls (snd (run (generate_and_send w description feedback_type))) = 0.
Proof.
  intros Hgen. rewrite generate_and_send_run, Hgen.
  rewrite (send_feedback_falsy w None feedback_type eq_refl).
  cbn [fst snd]. rewrite app_nil_r.
  split; [reflexivity |]. split; [reflexivity |].
  apply generate_post_no_post.
Qed.

Lemma generate_and_send_after_failure_witness :
  fst (run (generate_and_send Mock.unreachable product_description "like"))
    = Returned (Some "Error generating post: Connection error.", None, false)
  /\ snd (run (generate_and_send Mock.unreachable product_description "like"))
     = snd (run (generate_post Mock.unreachable product_description))
  /\ post_calls (snd (run (generate_and_send Mock.unreachable product_description "like")))
     = []
  /\ client_calls (snd (run (generate_and_send Mock.unreachable product_description "like")))
     = 0.
Proof.
  apply (generate_and_send_after_failure Mock.unreachable product_description "like"
           (Some "Error generating post: Connection error.")).
  reflexivity.
Defined.

(** X12: when the generation succeeds, the identifier it returns always
    passes the relay's guard, whatever number the tracer minted (the
    all-zero identifier of an invalid span included) and whatever the
    text is: once the relay's HTTP client is built, feedback is sent in
    one POST, after the span has been ended, with the formatted span
    identifier in the payload, and the run reports success exactly when
    that POST is answered with status 200. *)
Theorem generate_and_send_after_success
    (w : World) (description feedback_type : string)
    (r : ChatCompletion) (c : Choice) (cs : list Choice) (client : Client) :
  chat_completions_create w "gpt-4o" (messages description) = Returned r ->
  choices r = c :: cs ->
  httpx_client w = Returned client ->
  run (generate_and_send w description feedback_type)
  = (Returned
       (content (message c),
        Some (format_016x (tracer_span_id w)),
        relay_result
          (httpx_post w annotation_url
             (annotation_payload (Some (format_016x (tracer_span_id w)))
                feedback_type))),
     [ EvStartSpan "Social media post" creation_attributes;
       EvSetAttribute SpanAttributes.INPUT_VALUE (Some description);
       EvCompletion "gpt-4o" (messages description) (Returned r);
       EvSetAttribute SpanAttributes.OUTPUT_VALUE (content (message c));
       EvEndSpan None;
       EvHttpxClient (Returned client);
       EvPost annotation_url
         (annotation_payload (Some (format_016x (tracer_span_id w))) feedback_type)
         (httpx_post w annotation_url
            (annotation_payload (Some (format_016x (tracer_span_id w)))
               feedback_type)) ]).
Proof.
  intros Hr Hc Hclient. rewrite generate_and_send_run.
  rewrite (generate_post_returned w description r c cs Hr Hc). cbn [fst snd].
  rewrite (send_feedback_truthy w _ feedback_type client
             (truthy_Some _ (format_016x_nonempty (tracer_span_id w))) Hclient).
  reflexivity.
Qed.

Lemma generate_and_send_after_success_witness :
  run (generate_and_send Edge.invalid_span Mock.mug "dislike")
  = (Returned (Some "Great mug! #mugs", Some "0000000000000000", true),
     [ EvStartSpan "Social media post" creation_attributes;
       EvSetAttribute SpanAttributes.INPUT_VALUE (Some Mock.mug);
       EvCompletion "gpt-4o" (messages Mock.mug)
         (Returned (Mock.completion_of "Great mug! #mugs"));
       EvSetAttribute SpanAttributes.OUTPUT_VALUE (Some "Great mug! #mugs");
       EvEndSpan None;
       EvHttpxClient (Returned HttpxClient);
       EvPost annotation_url
         (annotation_payload (Some "0000000000000000") "dislike")
         (Returned {| status_code := 200 |}) ]).
Proof.
  apply (generate_and_send_after_success Edge.invalid_span Mock.mug "dislike"
           (Mock.completion_of "Great mug! #mugs")
           {| message := {| content := Some "Great mug! #mugs" |} |} []
           HttpxClient).
  - reflexivity.
  - reflexivity.
  - reflexivity.
Defined.

(** ** The configuration cell *)

Section SetupProperties.

Import Setup.

Context (getpass : string -> string).

Lemma setup_keys_differ :
  PHOENIX_API_KEY <> PHOENIX_CLIENT_HEADERS
  /\ PHOENIX_API_KEY <> PHOENIX_COLLECTOR_ENDPOINT
  /\ PHOENIX_API_KEY <> OPENAI_API_KEY
  /\ OPENAI_API_KEY <> PHOENIX_CLIENT_HEADERS
  /\ OPENAI_API_KEY <> PHOENIX_COLLECTOR_ENDPOINT
  /\ PHOENIX_CLIENT_HEADERS <> PHOENIX_COLLECTOR_ENDPOINT.
Proof. repeat split; discriminate. Qed.

(** The Phoenix branch writes two keys at most. *)
Lemma configure_phoenix_other (environ : gmap string string) (k : string) :
  k <> PHOENIX_CLIENT_HEADERS -> k <> PHOENIX_COLLECTOR_ENDPOINT ->
  fst (configure_phoenix environ) !! k = environ !! k.
Proof.
  intros Hh He. unfold configure_phoenix.
  destruct (environ !! PHOENIX_API_KEY); cbn [fst]; [| reflexivity].
  now rewrite !lookup_insert_ne by congruence.
Qed.

(** The OpenAI branch writes one key at most. *)
Lemma configure_openai_other (environ : gmap string string) (k : string) :
  k <> OPENAI_API_KEY ->
  fst (configure_openai getpass environ) !! k = environ !! k.
Proof.
  intros Ho. unfold configure_openai.
  destruct (truthy (environ !! OPENAI_API_KEY)); cbn [negb fst]; [reflexivity |].
  now rewrite lookup_insert_ne by congruence.
Qed.

Lemma configure_fst (environ : gmap string string) :
  fst (configure getpass environ)
  = fst (configure_openai getpass (fst (configure_phoenix environ))).
Proof.
  unfold configure.
  destruct (configure_phoenix environ) as [environ1 ev1]. cbn [fst].
  destruct (configure_openai getpass environ1); reflexivity.
Qed.

Lemma configure_snd (environ : gmap string string) :
  snd (configure getpass environ)
  = (snd (configure_phoenix environ) ++ register_tracer
     ++ snd (configure_openai getpass (fst (configure_phoenix environ)))
     ++ [EvOpenAI])%list.
Proof.
  unfold configure.
  destruct (configure_phoenix environ) as [environ1 ev1]. cbn [fst snd].
  destruct (configure_openai getpass environ1); reflexivity.
Qed.

Lemma configure_other (environ : gmap string string) (k : string) :
  k <> PHOENIX_CLIENT_HEADERS -> k <> PHOENIX_COLLECTOR_ENDPOINT ->
  k <> OPENAI_API_KEY ->
  fst (configure getpass environ) !! k = environ !! k.
Proof.
  intros Hh He Ho. rewrite configure_fst.
  rewrite configure_openai_other by assumption.
  now apply configure_phoenix_other.
Qed.

Lemma launch_in_log (environ : gmap string string) :
  In EvLaunchApp (snd (configure getpass environ))
  <-> environ !! PHOENIX_API_KEY = None.
Proof.
  rewrite configure_snd. unfold configure_phoenix, configure_openai, register_tracer.
  destruct (environ !! PHOENIX_API_KEY) as [key|]; cbn [fst snd].
  - split; [| discriminate]. intros H. exfalso.
    destruct (truthy _); cbn in H; intuition discriminate.
  - split; [reflexivity |]. intros _. now left.
Qed.

Lemma getpass_in_log (environ : gmap string string) :
  In (EvGetpass getpass_prompt) (snd (configure getpass environ))
  <-> truthy (environ !! OPENAI_API_KEY) = false.
Proof.
  destruct setup_keys_differ as (_ & _ & _ & Hoh & Hoe & _).
  rewrite configure_snd. unfold configure_openai, register_tracer.
  rewrite (configure_phoenix_other environ OPENAI_API_KEY Hoh Hoe).
  destruct (truthy (environ !! OPENAI_API_KEY)); cbn [negb fst snd].
  - split; [| discriminate]. intros H. exfalso.
    unfold configure_phoenix in H.
    destruct (environ !! PHOENIX_API_KEY); cbn in H; intuition discriminate.
  - split; [reflexivity |]. intros _.
    apply in_or_app. right. cbn. tauto.
Qed.

Lemma configure_lookup_openai (environ : gmap string string) :
  fst (configure getpass environ) !! OPENAI_API_KEY
  = if truthy (environ !! OPENAI_API_KEY)
    then environ !! OPENAI_API_KEY
    else Some (getpass getpass_prompt).
Proof.
  destruct setup_keys_differ as (_ & _ & _ & Hoh & Hoe & _).
  rewrite configure_fst. unfold configure_openai.
  rewrite (configure_phoenix_other environ OPENAI_API_KEY Hoh Hoe).
  destruct (truthy (environ !! OPENAI_API_KEY)); cbn [negb fst].
  - now apply configure_phoenix_other.
  - apply lookup_insert_eq.
Qed.

Lemma configure_lookup_headers (environ : gmap string string) :
  fst (configure getpass environ) !! PHOENIX_CLIENT_HEADERS
  = match environ !! PHOENIX_API_KEY with
    | Some api_key => Some ("api_key=" ++ api_key)
    | None => environ !! PHOENIX_CLIENT_HEADERS
    end.
Proof.
  destruct setup_keys_differ as (_ & _ & _ & Hoh & Hoe & Hhe).
  rewrite configure_fst.
  rewrite configure_openai_other by congruence.
  unfold configure_phoenix.
  destruct (environ !! PHOENIX_API_KEY); cbn [fst]; [| reflexivity].
  rewrite lookup_insert_ne by congruence. apply lookup_insert_eq.
Qed.

Lemma configure_lookup_endpoint (environ : gmap string string) :
  fst (configure getpass environ) !! PHOENIX_COLLECTOR_ENDPOINT
  = match environ !! PHOENIX_API_KEY with
    | Some _ => Some "https://app.phoenix.arize.com"
    | None => environ !! PHOENIX_COLLECTOR_ENDPOINT
    end.
Proof.
  destruct setup_keys_differ as (_ & _ & _ & Hoh & Hoe & Hhe).
  rewrite configure_fst.
  rewrite configure_openai_other by congruence.
  unfold configure_phoenix.
  destruct (environ !! PHOENIX_API_KEY); cbn [fst]; [| reflexivity].
  apply lookup_insert_eq.
Qed.

End SetupProperties.

(** X13: the cell chooses between a local and a cloud Phoenix by the
    presence of PHOENIX_API_KEY in the environment, whatever its value
    (the empty string counts as present).  Present: no local instance is
    launched, PHOENIX_CLIENT_HEADERS becomes "api_key=" followed by the
    key and PHOENIX_COLLECTOR_ENDPOINT the cloud URL, replacing what was
    there.  Absent: a local instance is launched and both variables are
    left as they were. *)
Theorem configure_phoenix_choice
    (getpass : string -> string) (environ : gmap string string) :
  (forall api_key,
     environ !! Setup.PHOENIX_API_KEY = Some api_key ->
     ~ In Setup.EvLaunchApp (snd (Setup.configure getpass environ))
     /\ fst (Setup.configure getpass environ) !! Setup.PHOENIX_CLIENT_HEADERS
        = Some ("api_key=" ++ api_key)
     /\ fst (Setup.configure getpass environ) !! Setup.PHOENIX_COLLECTOR_ENDPOINT
        = Some "https://app.phoenix.arize.com")
  /\ (environ !! Setup.PHOENIX_API_KEY = None ->
      In Setup.EvLaunchApp (snd (Setup.configure getpass environ))
      /\ fst (Setup.configure getpass environ) !! Setup.PHOENIX_CLIENT_HEADERS
         = environ !! Setup.PHOENIX_CLIENT_HEADERS
      /\ fst (Setup.configure getpass environ) !! Setup.PHOENIX_COLLECTOR_ENDPOINT
         = environ !! Setup.PHOENIX_COLLECTOR_ENDPOINT).
Proof.
  split.
  - intros api_key Hkey.
    rewrite launch_in_log, configure_lookup_headers, configure_lookup_endpoint, Hkey.
    repeat split. congruence.
  - intros Hkey.
    rewrite launch_in_log, configure_lookup_headers, configure_lookup_endpoint, Hkey.
    repeat split.
Qed.

(** X14: after the cell has run, OPENAI_API_KEY is always set.  A key
    that was set and non-empty is kept and nothing is asked; a key that
    was missing or empty is asked for at the prompt, once, and what is
    typed is stored as it is, without any check. *)
Theorem configure_openai_key
    (getpass : string -> string) (environ : gmap string string) :
  is_Some (fst (Setup.configure getpass environ) !! Setup.OPENAI_API_KEY)
  /\ (truthy (environ !! Setup.OPENAI_API_KEY) = true ->
      fst (Setup.configure getpass environ) !! Setup.OPENAI_API_KEY
        = environ !! Setup.OPENAI_API_KEY
      /\ ~ In (Setup.EvGetpass Setup.getpass_prompt)
             (snd (Setup.configure getpass environ)))
  /\ (truthy (environ !! Setup.OPENAI_API_KEY) = false ->
      fst (Setup.configure getpass environ) !! Setup.OPENAI_API_KEY
        = Some (getpass Setup.getpass_prompt)
      /\ In (Setup.EvGetpass Setup.getpass_prompt)
            (snd (Setup.configure getpass environ))).
Proof.
  rewrite getpass_in_log, configure_lookup_openai. split; [| split].
  - destruct (environ !! Setup.OPENAI_API_KEY) as [v|] eqn:Hv; cbn.
    + destruct (negb (v =? "")%string); eexists; reflexivity.
    + eexists; reflexivity.
  - intros Ht. rewrite Ht. split; [reflexivity | congruence].
  - intros Ht. rewrite Ht. split; reflexivity.
Qed.

(** X15: the cell writes no other environment variable: every variable
    other than PHOENIX_CLIENT_HEADERS, PHOENIX_COLLECTOR_ENDPOINT and
    OPENAI_API_KEY, and so PHOENIX_API_KEY itself, is left as it was,
    set or unset. *)
Theorem configure_frame
    (getpass : string -> string) (environ : gmap string string) (k : string) :
  k <> Setup.PHOENIX_CLIENT_HEADERS ->
  k <> Setup.PHOENIX_COLLECTOR_ENDPOINT ->
  k <> Setup.OPENAI_API_KEY ->
  fst (Setup.configure getpass environ) !! k = environ !! k.
Proof. apply configure_other. Qed.

Lemma configure_frame_witness :
  fst (Setup.configure (fun _ => "sk-typed")
         {[ Setup.PHOENIX_API_KEY := "px-key" ]}) !! Setup.PHOENIX_API_KEY
  = ({[ Setup.PHOENIX_API_KEY := "px-key" ]} : gmap string string)
      !! Setup.PHOENIX_API_KEY.
Proof.
  apply (configure_frame (fun _ => "sk-typed")
           {[ Setup.PHOENIX_API_KEY := "px-key" ]} Setup.PHOENIX_API_KEY);
    discriminate.
Defined.

(** X16: running the cell again, with the same answer at the prompt,
    leaves the environment of the first run unchanged; and once a
    non-empty key has been typed, the second run does not ask again. *)
Theorem configure_rerun
    (getpass : string -> string) (environ : gmap string string) :
  fst (Setup.configure getpass (fst (Setup.configure getpass environ)))
    = fst (Setup.configure getpass environ)
  /\ (getpass Setup.getpass_prompt <> "" ->
      ~ In (Setup.EvGetpass Setup.getpass_prompt)
          (snd (Setup.configure getpass (fst (Setup.configure getpass environ))))).
Proof.
  set (environ' := fst (Setup.configure getpass environ)).
  destruct setup_keys_differ as (Hah & Hae & Hao & Hoh & Hoe & Hhe).
  assert (Hkey : environ' !! Setup.PHOENIX_API_KEY
                 = environ !! Setup.PHOENIX_API_KEY)
    by (apply configure_other; assumption).
  assert (Hopenai : environ' !! Setup.OPENAI_API_KEY
                    = if truthy (environ !! Setup.OPENAI_API_KEY)
                      then environ !! Setup.OPENAI_API_KEY
                      else Some (getpass Setup.getpass_prompt))
    by apply configure_lookup_openai.
  split.
  - apply map_eq. intros k.
    destruct (decide (k = Setup.OPENAI_API_KEY)) as [-> | Hko];
      [| destruct (decide (k = Setup.PHOENIX_CLIENT_HEADERS)) as [-> | Hkh];
         [| destruct (decide (k = Setup.PHOENIX_COLLECTOR_ENDPOINT)) as [-> | Hke]]].
    + rewrite configure_lookup_openai.
      destruct (truthy (environ' !! Setup.OPENAI_API_KEY)) eqn:Ht; [reflexivity |].
      rewrite Hopenai in *.
      destruct (truthy (environ !! Setup.OPENAI_API_KEY)) eqn:Ht0;
        [congruence | reflexivity].
    + rewrite configure_lookup_headers, Hkey.
      destruct (environ !! Setup.PHOENIX_API_KEY) eqn:Hk; [| reflexivity].
      unfold environ'. now rewrite configure_lookup_headers, Hk.
    + rewrite configure_lookup_endpoint, Hkey.
      destruct (environ !! Setup.PHOENIX_API_KEY) eqn:Hk; [| reflexivity].
      unfold environ'. now rewrite configure_lookup_endpoint, Hk.
    + now apply configure_other.
  - intros Hans. rewrite getpass_in_log, Hopenai.
    destruct (truthy (environ !! Setup.OPENAI_API_KEY)) eqn:Ht0.
    + rewrite Ht0. discriminate.
    + rewrite (truthy_Some _ Hans). discriminate.
Qed.
